(** * drf_csv_renderer.views: the CSV row-production pipeline

    A shallow embedding of src/drf_csv_renderer/views.py
    ([CSVListView.get_csv_data], [CSVListView._get_serialized_stream],
    [CSVGenericView.apply_rows_limit] and the entry points [list] and
    [get]) and the properties of its specification.

    Python generators are modelled as explicit state machines with a
    [next] function; every call the view makes to an external collaborator
    (the queryset, the paginator, the serializer) is recorded in a trace that
    is threaded through the code, so that "how often" and "when" are
    statements about that trace. *)

From Stdlib Require Import List ZArith String Bool Lia.
Import ListNotations.

Local Open Scope Z_scope.

(** ** Python values the views manipulate *)

Module Py.

(** An exception as the code observes it: [except ValueError] tests the
    class, [str(e)] gives the message. *)
Record exn : Type := mkExn {
  is_value_error : bool;
  exn_str : string
}.

(** [needle in hay] on strings. *)
Fixpoint str_contains (needle hay : string) : bool :=
  if String.prefix needle hay then true
  else match hay with
       | EmptyString => false
       | String _ rest => str_contains needle rest
       end.

(** [xs[:n]] on a list: a negative bound counts from the end. *)
Definition slice_to {A : Type} (xs : list A) (n : Z) : list A :=
  if 0 <=? n then firstn (Z.to_nat n) xs
  else firstn (Z.to_nat (Z.of_nat (List.length xs) + n)) xs.

(** What one [next()] on an iterator gives. *)
Inductive outcome (A : Type) : Type :=
| Yield (a : A)
| StopIteration
| Raise (e : exn).
Arguments Yield {A} a.
Arguments StopIteration {A}.
Arguments Raise {A} e.

(** How a consumer that pulls a bounded number of rows leaves a
    generator. *)
Inductive ending : Type :=
| Suspended            (* the consumer stopped pulling *)
| Exhausted            (* StopIteration was reached *)
| Failed (e : exn).    (* an exception came out of next() *)

Section Generators.
Context {G W A : Type}.
(** [next g w]: one pull on generator state [g] in world [w]. *)
Variable next : G -> W -> outcome A * G * W.

(** A consumer that asks for at most [k] rows. *)
Fixpoint pull_rows (k : nat) (g : G) (w : W) : list A * ending * G * W :=
  match k with
  | O => ([], Suspended, g, w)
  | S k' =>
      match next g w with
      | (Yield a, g', w') =>
          let '(rows, fin, g'', w'') := pull_rows k' g' w' in
          (a :: rows, fin, g'', w'')
      | (StopIteration, g', w') => ([], Exhausted, g', w')
      | (Raise e, g', w') => ([], Failed e, g', w')
      end
  end.

Definition rows_of (r : list A * ending * G * W) : list A :=
  let '(rows, _, _, _) := r in rows.
Definition ending_of (r : list A * ending * G * W) : ending :=
  let '(_, fin, _, _) := r in fin.
Definition world_of (r : list A * ending * G * W) : W :=
  let '(_, _, _, w) := r in w.
End Generators.

End Py.
Import Py.

(** ** External collaborators *)

(** The backing store, as the view uses it. *)
Class Backend : Type := {
  Obj : Type;        (* a model instance *)
  Row : Type;        (* an output row: a mapping from field name to value *)
  Ctx : Type;        (* a serializer context *)
  QuerySet : Type;   (* a lazy query handle *)
  (** [queryset[:n]]: a new, still unevaluated queryset. *)
  qs_slice : QuerySet -> Z -> QuerySet;
  (** Evaluating the queryset in full ([list(qs)], [iter(qs)]). *)
  qs_fetch : QuerySet -> exn + list Obj;
  (** [queryset.iterator(chunk_size=...)]: the records the cursor walks. *)
  qs_iterator : QuerySet -> option Z -> exn + list Obj;
  (** The field mapping [values()] gives for a record. *)
  obj_values : Obj -> Row
}.

Section Views.
Context `{B : Backend}.

(** [serializer_class(obj, context=ctx).data]. *)
Record Serializer : Type := mkSerializer {
  to_representation : Ctx -> Obj -> Row
}.

(** The view instance: its attributes and the methods it inherits from
    the framework and from [CSVResponseMixin]. *)
Record View : Type := mkView {
  (** [self.filter_queryset(self.get_queryset())] *)
  queryset : QuerySet;
  csv_streaming : bool;
  (** [self.get_csv_rows_count()] *)
  get_csv_rows_count : option Z;
  (** [None]: the attribute is absent, [getattr] gives its default *)
  csv_streaming_chunk_size : option Z;
  (** [None]: the attribute is absent or falsy *)
  serializer_class : option Serializer;
  (** [self.get_serializer_class()]: the class, or the exception it raises *)
  get_serializer_class : exn + Serializer;
  (** [self.get_serializer_context()]: the context, or the exception it
      raises; each call builds it anew, with the same outcome *)
  get_serializer_context : exn + Ctx;
  (** [self.get_serializer(qs, many=True).data] on the evaluated records;
      what [get_serializer] calls inside the framework is not recorded *)
  get_serializer_many : list Obj -> list Row;
  paginate_queryset : QuerySet -> option QuerySet
}.

(** Calls to the collaborators, in the order they happen. *)
Inductive event : Type :=
| EvPaginate (q : QuerySet)
| EvFetch (q : QuerySet)
| EvIterator (q : QuerySet) (chunk_size : option Z)
| EvGetSerializerClass
| EvGetSerializerContext
| EvSerialize (o : Obj)
| EvSerializeMany (os : list Obj).

Definition trace : Type := list event.

Definition log (e : event) (tr : trace) : trace := tr ++ [e].

Definition is_store_event (e : event) : bool :=
  match e with EvFetch _ | EvIterator _ _ => true | _ => false end.
Definition is_chunked_call (e : event) : bool :=
  match e with EvIterator _ (Some _) => true | _ => false end.
Definition is_context_build (e : event) : bool :=
  match e with EvGetSerializerContext => true | _ => false end.
Definition is_serialize (e : event) : bool :=
  match e with EvSerialize _ => true | _ => false end.
Definition is_serialize_many (e : event) : bool :=
  match e with EvSerializeMany _ => true | _ => false end.

Definition count (p : event -> bool) (tr : trace) : nat :=
  List.length (filter p tr).

(** *** [CSVListView._get_serialized_stream] *)

(** The generator object: created with its body not yet entered,
    suspended at the [yield] inside the loop, or finished. *)
Inductive serialized_stream : Type :=
| SCreated (q : QuerySet)
| SLoop (sc : Serializer) (iterator : list Obj)
| SDone.

Definition needs_chunk_size (e : exn) : bool :=
  is_value_error e && str_contains "chunk_size must be provided" (exn_str e).

Definition chunk_size_of (v : View) : Z :=
  match csv_streaming_chunk_size v with
  | Some c => c
  | None => 1000
  end.

(** The [try ... except ValueError] block. *)
Definition open_iterator (v : View) (q : QuerySet) (tr : trace)
  : (exn + list Obj) * trace :=
  let tr := log (EvIterator q None) tr in
  match qs_iterator q None with
  | inr iterator => (inr iterator, tr)
  | inl e =>
      if needs_chunk_size e then
        let chunk_size := chunk_size_of v in
        (qs_iterator q (Some chunk_size),
         log (EvIterator q (Some chunk_size)) tr)
      else (inl e, tr)
  end.

(** One turn of [for obj in iterator]. *)
Definition stream_loop (v : View) (sc : Serializer) (iterator : list Obj)
  (tr : trace) : outcome Row * serialized_stream * trace :=
  match iterator with
  | [] => (StopIteration, SDone, tr)
  | obj :: rest =>
      let tr := log EvGetSerializerContext tr in
      match get_serializer_context v with
      | inl e => (Raise e, SDone, tr)
      | inr ctx =>
          (Yield (to_representation sc ctx obj), SLoop sc rest,
           log (EvSerialize obj) tr)
      end
  end.

Definition stream_next (v : View) (g : serialized_stream) (tr : trace)
  : outcome Row * serialized_stream * trace :=
  match g with
  | SCreated q =>
      let tr := log EvGetSerializerClass tr in
      match get_serializer_class v with
      | inl e => (Raise e, SDone, tr)
      | inr sc =>
          match open_iterator v q tr with
          | (inl e, tr) => (Raise e, SDone, tr)
          | (inr iterator, tr) => stream_loop v sc iterator tr
          end
      end
  | SLoop sc iterator => stream_loop v sc iterator tr
  | SDone => (StopIteration, SDone, tr)
  end.

(** *** [(item for item in queryset.values())] *)

(** A generator expression takes the iterator of its outermost iterable
    when it is created, and iterating a queryset evaluates it; the state of
    the generator is the rows still to be handed out. *)
Definition values_next (g : list Row) (tr : trace)
  : outcome Row * list Row * trace :=
  match g with
  | [] => (StopIteration, [], tr)
  | item :: rest => (Yield item, rest, tr)
  end.

(** *** [CSVListView.get_csv_data] *)

Inductive csv_data : Type :=
| DataList (rows : list Row)
| DataStream (g : serialized_stream)
| DataValues (g : list Row).

Definition limit_queryset (rows_count : option Z) (q : QuerySet) : QuerySet :=
  match rows_count with
  | Some n => qs_slice q n
  | None => q
  end.

Definition get_csv_data (v : View) (tr : trace) : (exn + csv_data) * trace :=
  let qs := queryset v in
  let rows_count := get_csv_rows_count v in
  if csv_streaming v then
    let qs := limit_queryset rows_count qs in
    match serializer_class v with
    | Some _ => (inr (DataStream (SCreated qs)), tr)
    | None =>
        let tr := log (EvFetch qs) tr in
        match qs_fetch qs with
        | inl e => (inl e, tr)
        | inr objs => (inr (DataValues (map obj_values objs)), tr)
        end
    end
  else
    let qs := limit_queryset rows_count qs in
    let page := paginate_queryset v qs in
    let tr := log (EvPaginate qs) tr in
    let qs := match page with Some p => p | None => qs end in
    match serializer_class v with
    | Some _ =>
        let tr := log (EvFetch qs) tr in
        match qs_fetch qs with
        | inl e => (inl e, tr)
        | inr objs =>
            (inr (DataList (get_serializer_many v objs)),
             log (EvSerializeMany objs) tr)
        end
    | None =>
        let tr := log (EvFetch qs) tr in
        match qs_fetch qs with
        | inl e => (inl e, tr)
        | inr objs => (inr (DataList (map obj_values objs)), tr)
        end
    end.

End Views.

Arguments Serializer {B}.
Arguments View {B}.

(** The view with one attribute replaced. *)
Definition set_streaming `{Backend} (b : bool) (v : View) : View :=
  mkView (queryset v) b (get_csv_rows_count v) (csv_streaming_chunk_size v)
    (serializer_class v) (get_serializer_class v) (get_serializer_context v)
    (get_serializer_many v) (paginate_queryset v).

Definition set_rows_count `{Backend} (n : option Z) (v : View) : View :=
  mkView (queryset v) (csv_streaming v) n (csv_streaming_chunk_size v)
    (serializer_class v) (get_serializer_class v) (get_serializer_context v)
    (get_serializer_many v) (paginate_queryset v).

(** What the transport receives when it consumes the result of
    [get_csv_data], asking a lazy result for at most [k] rows. *)
Definition consume `{Backend} (v : View) (k : nat) (d : csv_data) (tr : trace)
  : list Row * ending * trace :=
  match d with
  | DataList rows => (rows, Exhausted, tr)
  | DataStream g =>
      let r := pull_rows (stream_next v) k g tr in
      (rows_of r, ending_of r, world_of r)
  | DataValues g =>
      let r := pull_rows values_next k g tr in
      (rows_of r, ending_of r, world_of r)
  end.

Definition export `{Backend} (v : View) (k : nat) (tr : trace)
  : list Row * ending * trace :=
  match get_csv_data v tr with
  | (inl e, tr') => ([], Failed e, tr')
  | (inr d, tr') => consume v k d tr'
  end.

(** ** [CSVGenericView.apply_rows_limit] *)

Section RowsLimit.
Context {A : Type}.

(** An iterator over a finite lazy sequence: the items it has still to
    hand out, and how many it has handed out so far. *)
Record upstream : Type := mkUpstream {
  remaining : list A;
  consumed : nat
}.

(** The data a subclass may pass in. *)
Inductive pydata : Type :=
| PyList (xs : list A)
| PyStr (s : string)
| PyBytes (bs : list Byte.byte)
| PyDict (items : list (string * A))
| PyIterable (it : upstream)   (* any other object with __iter__ *)
| PyObject (o : A).            (* an object without __iter__ *)

(** State of [(item for i, item in enumerate(data) if i < rows_count)]:
    the bound it closed over and the counter of [enumerate]. *)
Record limit_gen : Type := mkLimitGen {
  lg_rows_count : Z;
  lg_index : Z
}.

Inductive limited : Type :=
| Value (d : pydata)
| Genexpr (g : limit_gen) (it : upstream).

Definition apply_rows_limit (rows_count : option Z) (data : pydata) : limited :=
  match rows_count with
  | Some n =>
      match data with
      | PyList xs => Value (PyList (slice_to xs n))
      | PyIterable it => Genexpr (mkLimitGen n 0) it
      | PyStr _ | PyBytes _ | PyDict _ => Value data
      | PyObject _ => Value data
      end
  | None => Value data
  end.

(** One [next()] on the generator expression: it advances [enumerate]
    until an item passes the filter or the upstream iterator ends. *)
Fixpoint limit_scan (rows_count i : Z) (rest : list A) (used : nat)
  : outcome A * limit_gen * upstream :=
  match rest with
  | [] => (StopIteration, mkLimitGen rows_count i, mkUpstream [] used)
  | item :: rest' =>
      if i <? rows_count
      then (Yield item, mkLimitGen rows_count (i + 1), mkUpstream rest' (S used))
      else limit_scan rows_count (i + 1) rest' (S used)
  end.

Definition limit_next (g : limit_gen) (it : upstream)
  : outcome A * limit_gen * upstream :=
  limit_scan (lg_rows_count g) (lg_index g) (remaining it) (consumed it).

End RowsLimit.
Arguments upstream A : clear implicits.
Arguments pydata A : clear implicits.
Arguments limited A : clear implicits.

(** ** A concrete store

    Querysets over integer primary keys, with the cursor behaviour of the
    ORM the views are written against: [iterator()] without a chunk size
    is refused after [prefetch_related()], a chunk size must be positive,
    and an unreachable database fails every evaluation. *)

Module Orm.

Record queryset_ : Type := mkQs {
  qs_objs : list Z;
  qs_prefetch : bool;
  qs_down : option exn
}.

Definition prefetch_error : exn :=
  mkExn true
    "chunk_size must be provided when using QuerySet.iterator() after prefetch_related().".

Definition chunk_error : exn :=
  mkExn true "Chunk size must be strictly positive.".

Definition operational_error : exn :=
  mkExn false "could not connect to server".

Definition slice (q : queryset_) (n : Z) : queryset_ :=
  mkQs (firstn (Z.to_nat n) (qs_objs q)) (qs_prefetch q) (qs_down q).

Definition fetch (q : queryset_) : exn + list Z :=
  match qs_down q with
  | Some e => inl e
  | None => inr (qs_objs q)
  end.

Definition iterator (q : queryset_) (chunk_size : option Z) : exn + list Z :=
  match chunk_size with
  | None => if qs_prefetch q then inl prefetch_error else fetch q
  | Some c => if c <=? 0 then inl chunk_error else fetch q
  end.

Definition values (o : Z) : list (string * Z) := [("id"%string, o)].

#[export] Instance backend : Backend := {|
  Obj := Z;
  Row := list (string * Z);
  Ctx := string;
  QuerySet := queryset_;
  qs_slice := slice;
  qs_fetch := fetch;
  qs_iterator := iterator;
  obj_values := values
|}.

(** A serializer that renders the primary key. *)
Definition pk_serializer : Serializer :=
  mkSerializer (fun (ctx : Ctx) (o : Obj) => [("pk"%string, o)]).

(** The second page of a page-number paginator with page size two. *)
Definition page_two (q : queryset_) : option queryset_ :=
  Some (mkQs (firstn 2 (skipn 2 (qs_objs q))) (qs_prefetch q) (qs_down q)).

Definition no_page (q : queryset_) : option queryset_ := None.

Definition view_of (q : queryset_) (streaming : bool) (rows_count : option Z)
  (paginate : queryset_ -> option queryset_) : View :=
  mkView q streaming rows_count None (Some pk_serializer) (inr pk_serializer)
    (inr "request"%string) (map (to_representation pk_serializer "request"%string))
    paginate.

Definition five : queryset_ := mkQs [1; 2; 3; 4; 5] false None.
Definition five_prefetched : queryset_ := mkQs [1; 2; 3; 4; 5] true None.
Definition five_down : queryset_ := mkQs [1; 2; 3; 4; 5] false (Some operational_error).

(** A streaming view whose serializer context cannot be built. *)
Definition improperly_configured : exn :=
  mkExn false "serializer context is not available".

Definition view_without_context : View :=
  mkView five true None None (Some pk_serializer) (inr pk_serializer)
    (inl improperly_configured)
    (map (to_representation pk_serializer "request"%string)) no_page.

(** A streaming view over prefetched records whose chunk size is set to
    zero. *)
Definition view_with_zero_chunk : View :=
  mkView five_prefetched true None (Some 0) (Some pk_serializer)
    (inr pk_serializer) (inr "request"%string)
    (map (to_representation pk_serializer "request"%string)) no_page.

(** A streaming view without a serializer class. *)
Definition raw_view (q : queryset_) (rows_count : option Z) : View :=
  mkView q true rows_count None None (inr pk_serializer)
    (inr "request"%string)
    (map (to_representation pk_serializer "request"%string)) no_page.

Definition none : queryset_ := mkQs [] false None.

(** A streaming view over no records whose serializer context cannot be
    built. *)
Definition empty_view_without_context : View :=
  mkView none true None None (Some pk_serializer) (inr pk_serializer)
    (inl improperly_configured)
    (map (to_representation pk_serializer "request"%string)) no_page.

End Orm.

(** ** The properties, as the specification words them *)

Section Statements.
Context `{B : Backend}.

(** The events one turn of the streaming loop leaves per record. *)
Definition loop_events (objs : list Obj) : trace :=
  flat_map (fun o => [EvGetSerializerContext; EvSerialize o]) objs.

(** The events the [try ... except] block leaves when it runs for [q]. *)
Definition open_events (v : View) (q : QuerySet) : trace :=
  snd (open_iterator v q []).

(** The export of [v] ran to its end and delivered exactly [rows]. *)
Definition exported (v : View) (k : nat) (rows : list Row) : Prop :=
  fst (export v k []) = (rows, Exhausted).

(** Slicing restricts the query to its first [n] records. *)
Definition slice_restricts (q : QuerySet) (n : Z) : Prop :=
  forall objs, qs_fetch q = inr objs ->
    qs_fetch (qs_slice q n) = inr (firstn (Z.to_nat n) objs).

(** No paginator narrows the query [q]. *)
Definition unpaginated (v : View) (q : QuerySet) : Prop :=
  paginate_queryset v q = None.

(** The batch serializer renders record by record. *)
Definition rowwise (v : View) : Prop :=
  exists f : Obj -> Row, forall objs, get_serializer_many v objs = map f objs.

(** The batch serializer renders each record as the per-record serializer
    of the streaming path does. *)
Definition serializers_agree (v : View) : Prop :=
  match serializer_class v with
  | None => True
  | Some _ =>
      exists sc ctx,
        get_serializer_class v = inr sc /\
        get_serializer_context v = inr ctx /\
        forall objs, get_serializer_many v objs = map (to_representation sc ctx) objs
  end.

(** The cursor of [q] opens, at once or after the chunk-size fallback, and
    walks [objs]. *)
Definition cursor_opens (v : View) (q : QuerySet) (objs : list Obj) : Prop :=
  qs_iterator q None = inr objs \/
  exists e, qs_iterator q None = inl e /\ needs_chunk_size e = true /\
            qs_iterator q (Some (chunk_size_of v)) = inr objs.

(** Section 8, first property: a limited eager export is the prefix of the
    unlimited one, of length [min(|Q|, L)]. *)
Definition limit_is_prefix (v : View) (L : Z) : Prop :=
  forall objs, qs_fetch (queryset v) = inr objs ->
    exists rows full,
      exported (set_rows_count (Some L) (set_streaming false v)) 0 rows /\
      exported (set_rows_count None (set_streaming false v)) 0 full /\
      List.length rows = Nat.min (List.length objs) (Z.to_nat L) /\
      rows = firstn (Z.to_nat L) full.

(** Section 8, second property: both modes deliver the same rows to a
    consumer that asks for [k] of them. *)
Definition same_output (v : View) (k : nat) : Prop :=
  fst (export (set_streaming true v) k []) =
  fst (export (set_streaming false v) k []).

(** Section 7: a streaming view whose transform context is unavailable is
    refused when [get_csv_data] is called. *)
Definition configuration_error_is_synchronous (v : View) : Prop :=
  csv_streaming v = true ->
  forall e, get_serializer_class v = inl e \/ get_serializer_context v = inl e ->
    fst (get_csv_data v []) = inl e.

(** Section 4.2, step 3b: one transform per yielded row, and a context
    built once for the whole iteration. *)
Definition one_transform_per_row_shared_context (v : View) (q : QuerySet)
  (k : nat) : Prop :=
  let r := pull_rows (stream_next v) k (SCreated q) [] in
  count is_serialize (world_of r) = List.length (rows_of r) /\
  (count is_context_build (world_of r) <= 1)%nat.

End Statements.

(** Section 8, third property: truncating a lazy sequence to [L] items
    takes at most [L + 1] items from it, however far the consumer pulls. *)
Definition bounded_consumption {A : Type} (L : Z) (it : upstream A) : Prop :=
  forall k,
    (consumed (world_of (pull_rows limit_next k (mkLimitGen L 0) it))
     <= consumed it + Z.to_nat L + 1)%nat.

(** ** The entry points and further vocabulary *)

Section EntryPoints.
Context `{B : Backend} {Response : Type}.

(** [self.create_csv_response(data)], inherited from [CSVResponseMixin];
    it may consume the data it is given, so it threads the trace. *)
Variable create_csv_response :
  csv_data -> trace -> (exn + Response) * trace.


End EntryPoints.

(** [CSVGenericView.get_csv_data], as the class defines it. *)
Definition not_implemented : exn :=
  mkExn false "Subclasses must implement get_csv_data() method".

Definition generic_get_csv_data {D : Type} : exn + D := inl not_implemented.

(** [CSVGenericView.get], over the [get_csv_data] the instance has. *)
Definition generic_get {D Response : Type} (get_csv_data : exn + D)
  (create_csv_response : D -> exn + Response) : exn + Response :=
  match get_csv_data with
  | inl e => inl e
  | inr data => create_csv_response data
  end.

Definition set_chunk_size `{Backend} (c : option Z) (v : View) : View :=
  mkView (queryset v) (csv_streaming v) (get_csv_rows_count v) c
    (serializer_class v) (get_serializer_class v) (get_serializer_context v)
    (get_serializer_many v) (paginate_queryset v).

Definition is_paginate `{Backend} (e : event) : bool :=
  match e with EvPaginate _ => true | _ => false end.
Definition is_fetch `{Backend} (e : event) : bool :=
  match e with EvFetch _ => true | _ => false end.
Definition is_cursor_call `{Backend} (e : event) : bool :=
  match e with EvIterator _ _ => true | _ => false end.
Definition is_class_lookup `{Backend} (e : event) : bool :=
  match e with EvGetSerializerClass => true | _ => false end.

(** The calls the streaming mode may make. *)
Definition streaming_event `{Backend} (e : event) : bool :=
  match e with
  | EvFetch _ | EvIterator _ _ | EvGetSerializerClass
  | EvGetSerializerContext | EvSerialize _ => true
  | EvPaginate _ | EvSerializeMany _ => false
  end.

(** The generator has entered its body. *)
Definition started `{Backend} (g : serialized_stream) : Prop :=
  match g with
  | SCreated _ => False
  | SLoop _ _ | SDone => True
  end.

Definition state_of {G W A : Type} (r : list A * ending * G * W) : G :=
  let '(_, _, g, _) := r in g.


(** ** Traces *)

Section TraceFacts.
Context `{B : Backend}.

Lemma count_app (p : event -> bool) (tr1 tr2 : trace) :
  count p (tr1 ++ tr2) = (count p tr1 + count p tr2)%nat.
Proof. unfold count. now rewrite filter_app, length_app. Qed.

Lemma count_log (p : event -> bool) (e : event) (tr : trace) :
  count p (log e tr) = (count p tr + if p e then 1 else 0)%nat.
Proof.
  unfold log. rewrite count_app. unfold count. simpl.
  now destruct (p e).
Qed.

Lemma count_loop_events_serialize (objs : list Obj) :
  count is_serialize (loop_events objs) = List.length objs.
Proof.
  induction objs as [|o objs IH]; [reflexivity|].
  unfold count in *. simpl. now rewrite IH.
Qed.

Lemma count_loop_events_context (objs : list Obj) :
  count is_context_build (loop_events objs) = List.length objs.
Proof.
  induction objs as [|o objs IH]; [reflexivity|].
  unfold count in *. simpl. now rewrite IH.
Qed.

Lemma count_loop_events_other (p : event -> bool) (objs : list Obj) :
  p EvGetSerializerContext = false ->
  (forall o, p (EvSerialize o) = false) ->
  count p (loop_events objs) = 0%nat.
Proof.
  intros Hctx Hser.
  induction objs as [|o objs IH]; [reflexivity|].
  unfold count in *. simpl. now rewrite Hctx, Hser.
Qed.

End TraceFacts.

(** ** The streaming generator *)

Section StreamFacts.
Context `{B : Backend}.
Variable v : View.

(** The [try ... except] block only appends to the trace, and what it
    returns does not depend on the trace. *)
Lemma open_iterator_trace (q : QuerySet) (tr : trace) :
  open_iterator v q tr = (fst (open_iterator v q []), tr ++ open_events v q).
Proof.
  unfold open_events, open_iterator, log.
  destruct (qs_iterator q None) as [e|objs]; simpl; [|reflexivity].
  destruct (needs_chunk_size e); simpl; [|reflexivity].
  now rewrite <- app_assoc.
Qed.

Lemma cursor_opens_result (q : QuerySet) (objs : list Obj) :
  cursor_opens v q objs -> fst (open_iterator v q []) = inr objs.
Proof.
  unfold open_iterator.
  intros [Hdirect | (e & Hfail & Hrec & Hchunk)].
  - now rewrite Hdirect.
  - now rewrite Hfail, Hrec.
Qed.

Lemma open_events_counts (q : QuerySet) :
  count is_serialize (open_events v q) = 0%nat /\
  count is_context_build (open_events v q) = 0%nat.
Proof.
  unfold open_events, open_iterator.
  destruct (qs_iterator q None) as [e|objs]; [|now split].
  destruct (needs_chunk_size e); now split.
Qed.

(** Pulling [k] rows from a generator suspended in its loop. *)
Lemma pull_loop (sc : Serializer) (ctx : Ctx) :
  get_serializer_context v = inr ctx ->
  forall (k : nat) (objs : list Obj) (tr : trace),
    pull_rows (stream_next v) k (SLoop sc objs) tr =
    (map (to_representation sc ctx) (firstn k objs),
     (if (k <=? List.length objs)%nat then Suspended else Exhausted),
     (if (k <=? List.length objs)%nat then SLoop sc (skipn k objs) else SDone),
     tr ++ loop_events (firstn k objs)).
Proof.
  intros Hctx k.
  induction k as [|k IH]; intros objs tr.
  - simpl. now rewrite app_nil_r.
  - destruct objs as [|o rest].
    + simpl. now rewrite app_nil_r.
    + cbn [pull_rows stream_next stream_loop]. rewrite Hctx, IH.
      unfold log. cbn. now rewrite <- !app_assoc.
Qed.

(** The first pull enters the body; once the cursor is open the generator
    behaves as one suspended at the head of the loop. *)
Lemma pull_created (sc : Serializer) (q : QuerySet) (objs : list Obj)
  (k : nat) (tr : trace) :
  get_serializer_class v = inr sc ->
  fst (open_iterator v q []) = inr objs ->
  pull_rows (stream_next v) (S k) (SCreated q) tr =
  pull_rows (stream_next v) (S k) (SLoop sc objs)
    (tr ++ EvGetSerializerClass :: open_events v q).
Proof.
  intros Hsc Hopen.
  cbn [pull_rows stream_next]. rewrite Hsc.
  rewrite open_iterator_trace, Hopen. unfold log.
  now rewrite <- app_assoc.
Qed.

End StreamFacts.

(** ** Streaming iteration: fallback, errors and laziness *)

Section StreamingClaims.
Context `{B : Backend}.

(** C3.  When [queryset.iterator()] fails with a [ValueError] whose message
    contains "chunk_size must be provided", the stream does not raise it:
    it calls [iterator] once more, with [csv_streaming_chunk_size]
    (1000 when the attribute is absent), and, the chunked cursor walking the
    records the query evaluates to, it yields one serialized row per record,
    in the order of the records, and then ends. *)
Theorem chunk_size_fallback_recovers (v : View) (q : QuerySet) (e : exn)
  (sc : Serializer) (ctx : Ctx) (objs : list Obj) (tr : trace) (k : nat) :
  get_serializer_class v = inr sc ->
  get_serializer_context v = inr ctx ->
  qs_iterator q None = inl e ->
  needs_chunk_size e = true ->
  qs_iterator q (Some (chunk_size_of v)) = qs_fetch q ->
  qs_fetch q = inr objs ->
  (List.length objs < k)%nat ->
  let r := pull_rows (stream_next v) k (SCreated q) tr in
  rows_of r = map (to_representation sc ctx) objs /\
  ending_of r = Exhausted /\
  world_of r =
    tr ++ [EvGetSerializerClass; EvIterator q None;
           EvIterator q (Some (chunk_size_of v))] ++ loop_events objs /\
  count is_chunked_call (world_of r) = (count is_chunked_call tr + 1)%nat /\
  (csv_streaming_chunk_size v = None -> chunk_size_of v = 1000).
Proof.
  intros Hsc Hctx Hfail Hrec Hchunk Hfetch Hk r.
  assert (Hopens : cursor_opens v q objs).
  { right. exists e. rewrite Hchunk. auto. }
  assert (Hev : open_events v q =
                [EvIterator q None; EvIterator q (Some (chunk_size_of v))]).
  { unfold open_events, open_iterator. now rewrite Hfail, Hrec. }
  destruct k as [|k]; [lia|].
  assert (Hr : r = (map (to_representation sc ctx) objs, Exhausted, SDone,
                    tr ++ [EvGetSerializerClass; EvIterator q None;
                           EvIterator q (Some (chunk_size_of v))]
                       ++ loop_events objs)).
  { subst r.
    rewrite (pull_created v sc q objs k tr Hsc (cursor_opens_result v q objs Hopens)).
    rewrite (pull_loop v sc ctx Hctx), Hev.
    rewrite firstn_all2 by lia.
    replace (S k <=? List.length objs)%nat with false
      by (symmetry; apply Nat.leb_gt; lia).
    now rewrite <- app_assoc. }
  rewrite Hr. cbn [rows_of ending_of world_of].
  repeat split.
  - rewrite !count_app, count_loop_events_other by reflexivity.
    unfold count. simpl. lia.
  - intros Hnone. unfold chunk_size_of. now rewrite Hnone.
Qed.

(** C4.  When [queryset.iterator()] fails with an error that is not the
    recognised one, the first pull raises that very error, the generator is
    finished, and [iterator] has been called once, without a chunk size. *)
Theorem unrelated_cursor_error_propagates (v : View) (q : QuerySet) (e : exn)
  (sc : Serializer) (tr : trace) :
  get_serializer_class v = inr sc ->
  qs_iterator q None = inl e ->
  needs_chunk_size e = false ->
  stream_next v (SCreated q) tr =
    (Raise e, SDone, tr ++ [EvGetSerializerClass; EvIterator q None]) /\
  count is_chunked_call (snd (stream_next v (SCreated q) tr)) =
    count is_chunked_call tr /\
  forall k, pull_rows (stream_next v) (S k) (SCreated q) tr =
    ([], Failed e, SDone, tr ++ [EvGetSerializerClass; EvIterator q None]).
Proof.
  intros Hsc Hfail Hrec.
  assert (Hnext : stream_next v (SCreated q) tr =
                  (Raise e, SDone, tr ++ [EvGetSerializerClass; EvIterator q None])).
  { cbn [stream_next]. unfold open_iterator, log.
    rewrite Hsc, Hfail, Hrec. now rewrite <- app_assoc. }
  repeat split.
  - exact Hnext.
  - rewrite Hnext. cbn [snd]. rewrite count_app. unfold count. simpl. lia.
  - intros k. cbn [pull_rows]. now rewrite Hnext.
Qed.

(** X8.  The fallback is tried once: an error of the chunked [iterator]
    call, recognised or not, is raised by the first pull, and [iterator] is
    not called a third time. *)
Lemma fallback_failure_propagates (v : View) (q : QuerySet) (e e' : exn)
  (sc : Serializer) (tr : trace) :
  get_serializer_class v = inr sc ->
  qs_iterator q None = inl e ->
  needs_chunk_size e = true ->
  qs_iterator q (Some (chunk_size_of v)) = inl e' ->
  stream_next v (SCreated q) tr =
    (Raise e', SDone,
     tr ++ [EvGetSerializerClass; EvIterator q None;
            EvIterator q (Some (chunk_size_of v))]).
Proof.
  intros Hsc Hfail Hrec Hchunk.
  cbn [stream_next]. unfold open_iterator, log.
  rewrite Hsc, Hfail, Hrec, Hchunk. now rewrite <- !app_assoc.
Qed.

(** C7, as amended.  With a serializer the stream transforms lazily and per
    record: after [k] pulls it has delivered the first [k] records, each
    serialized once, and it has called [get_serializer_context] once per
    delivered record. *)
Theorem stream_transforms_per_pull (v : View) (q : QuerySet) (sc : Serializer)
  (ctx : Ctx) (objs : list Obj) (tr : trace) (k : nat) :
  get_serializer_class v = inr sc ->
  get_serializer_context v = inr ctx ->
  cursor_opens v q objs ->
  let r := pull_rows (stream_next v) k (SCreated q) tr in
  rows_of r = map (to_representation sc ctx) (firstn k objs) /\
  count is_serialize (world_of r) =
    (count is_serialize tr + Nat.min k (List.length objs))%nat /\
  count is_context_build (world_of r) =
    (count is_context_build tr + Nat.min k (List.length objs))%nat.
Proof.
  intros Hsc Hctx Hopens r.
  destruct k as [|k].
  - subst r. cbn [pull_rows rows_of world_of firstn map Nat.min].
    repeat split; try reflexivity; lia.
  - subst r.
    rewrite (pull_created v sc q objs k tr Hsc (cursor_opens_result v q objs Hopens)).
    rewrite (pull_loop v sc ctx Hctx).
    cbn [rows_of world_of].
    destruct (open_events_counts v q) as [Hs Hc].
    repeat split.
    + rewrite !count_app, count_loop_events_serialize, length_firstn.
      change (EvGetSerializerClass :: open_events v q)
        with ([EvGetSerializerClass] ++ open_events v q).
      rewrite count_app, Hs. unfold count at 2. simpl. lia.
    + rewrite !count_app, count_loop_events_context, length_firstn.
      change (EvGetSerializerClass :: open_events v q)
        with ([EvGetSerializerClass] ++ open_events v q).
      rewrite count_app, Hc. unfold count at 2. simpl. lia.
Qed.

(** C10.  A streaming view with a serializer class touches nothing when
    [get_csv_data] is called: it returns the generator object, body not
    entered, and the trace is unchanged.  The first pull is what calls
    [iterator] on the (limited) queryset, and an error of the store that the
    [try ... except] block lets through is raised by that pull. *)
Theorem streaming_defers_store_access (v : View) (s : Serializer) (tr : trace) :
  csv_streaming v = true ->
  serializer_class v = Some s ->
  let q := limit_queryset (get_csv_rows_count v) (queryset v) in
  get_csv_data v tr = (inr (DataStream (SCreated q)), tr) /\
  count is_store_event (snd (get_csv_data v tr)) = count is_store_event tr /\
  forall sc, get_serializer_class v = inr sc ->
    (exists rest,
       snd (stream_next v (SCreated q) tr) =
       tr ++ [EvGetSerializerClass; EvIterator q None] ++ rest) /\
    (forall e, fst (open_iterator v q []) = inl e ->
       fst (fst (stream_next v (SCreated q) tr)) = Raise e).
Proof.
  intros Hstream Hser q.
  assert (Hcall : get_csv_data v tr = (inr (DataStream (SCreated q)), tr)).
  { unfold get_csv_data. now rewrite Hstream, Hser. }
  split; [exact Hcall|]. split; [now rewrite Hcall|].
  intros sc Hsc. split.
  - cbn [stream_next]. rewrite Hsc. unfold open_iterator, log.
    destruct (qs_iterator q None) as [e|objs].
    + destruct (needs_chunk_size e).
      * destruct (qs_iterator q (Some (chunk_size_of v))) as [e'|objs].
        -- eexists. cbn [snd]. rewrite <- !app_assoc. reflexivity.
        -- unfold stream_loop, log. destruct objs as [|o rest].
           ++ eexists. cbn [snd]. rewrite <- !app_assoc. reflexivity.
           ++ destruct (get_serializer_context v);
                eexists; cbn [snd]; rewrite <- !app_assoc; reflexivity.
      * exists []. cbn [snd]. now rewrite <- !app_assoc.
    + unfold stream_loop, log. destruct objs as [|o rest].
      * exists []. cbn [snd]. now rewrite <- !app_assoc.
      * destruct (get_serializer_context v);
          eexists; cbn [snd]; rewrite <- !app_assoc; reflexivity.
  - intros e Hopen. cbn [stream_next]. rewrite Hsc.
    rewrite open_iterator_trace, Hopen. reflexivity.
Qed.

End StreamingClaims.

(** ** The eager export: limit, page, batch *)

Section EagerClaims.
Context `{B : Backend}.

(** The query the eager path evaluates: limited first, then paged. *)
Lemma get_csv_data_eager (v : View) (objs : list Obj) (tr : trace) :
  csv_streaming v = false ->
  let limited := limit_queryset (get_csv_rows_count v) (queryset v) in
  let paged :=
    match paginate_queryset v limited with Some p => p | None => limited end in
  qs_fetch paged = inr objs ->
  get_csv_data v tr =
    match serializer_class v with
    | Some _ =>
        (inr (DataList (get_serializer_many v objs)),
         tr ++ [EvPaginate limited; EvFetch paged; EvSerializeMany objs])
    | None =>
        (inr (DataList (map obj_values objs)),
         tr ++ [EvPaginate limited; EvFetch paged])
    end.
Proof.
  intros Heager limited paged Hfetch.
  unfold get_csv_data. rewrite Heager.
  fold limited. fold paged. rewrite Hfetch. unfold log.
  destruct (serializer_class v); now rewrite <- !app_assoc.
Qed.

Lemma export_eager (v : View) (objs : list Obj) (k : nat) :
  csv_streaming v = false ->
  let limited := limit_queryset (get_csv_rows_count v) (queryset v) in
  let paged :=
    match paginate_queryset v limited with Some p => p | None => limited end in
  qs_fetch paged = inr objs ->
  fst (export v k []) =
    (match serializer_class v with
     | Some _ => get_serializer_many v objs
     | None => map obj_values objs
     end, Exhausted).
Proof.
  intros Heager limited paged Hfetch.
  unfold export.
  rewrite (get_csv_data_eager v objs [] Heager Hfetch).
  now destruct (serializer_class v).
Qed.

(** C8.  In the eager mode the paginator is called on the queryset already
    sliced to the row limit; what is evaluated is the page it returns, or
    the sliced queryset when it returns none; and a serializer renders the
    evaluated records in one [many=True] call, no record being serialized
    on its own. *)
Theorem limit_then_page_then_batch (v : View) (L : Z) (objs : list Obj)
  (tr : trace) :
  csv_streaming v = false ->
  get_csv_rows_count v = Some L ->
  let limited := qs_slice (queryset v) L in
  let paged :=
    match paginate_queryset v limited with Some p => p | None => limited end in
  qs_fetch paged = inr objs ->
  get_csv_data v tr =
    match serializer_class v with
    | Some _ =>
        (inr (DataList (get_serializer_many v objs)),
         tr ++ [EvPaginate limited; EvFetch paged; EvSerializeMany objs])
    | None =>
        (inr (DataList (map obj_values objs)),
         tr ++ [EvPaginate limited; EvFetch paged])
    end /\
  count is_serialize (snd (get_csv_data v tr)) = count is_serialize tr /\
  (serializer_class v <> None ->
   count is_serialize_many (snd (get_csv_data v tr)) =
   (count is_serialize_many tr + 1)%nat).
Proof.
  intros Heager Hlimit limited paged Hfetch.
  assert (Hcall := get_csv_data_eager v objs tr Heager).
  rewrite Hlimit in Hcall. cbn [limit_queryset] in Hcall.
  specialize (Hcall Hfetch). fold limited in Hcall. fold paged in Hcall.
  split; [exact Hcall|]. rewrite Hcall.
  destruct (serializer_class v) as [s|]; cbn [snd]; rewrite !count_app;
    unfold count; simpl; split; try lia; intros Hs; try lia.
  now contradiction Hs.
Qed.

(** C1, as amended.  When no paginator narrows the query and the batch
    serializer (if any) renders record by record, the eager export with row
    limit [L >= 0] delivers [min(|Q|, L)] rows, the first [L] rows of the
    eager export without a limit. *)
Theorem limit_is_prefix_without_paginator (v : View) (L : Z) :
  0 <= L ->
  slice_restricts (queryset v) L ->
  unpaginated v (queryset v) ->
  unpaginated v (qs_slice (queryset v) L) ->
  (serializer_class v <> None -> rowwise v) ->
  limit_is_prefix v L.
Proof.
  intros HL Hslice Hfull Hlim Hrow objs Hfetch.
  set (n := Z.to_nat L).
  set (render := fun os : list Obj =>
         match serializer_class v with
         | Some _ => get_serializer_many v os
         | None => map obj_values os
         end).
  exists (render (firstn n objs)), (render objs).
  assert (Hrender : exists f, forall os, render os = map f os).
  { unfold render. destruct (serializer_class v) as [s|].
    - apply Hrow. discriminate.
    - now exists obj_values. }
  destruct Hrender as [f Hf].
  repeat split.
  - unfold exported.
    rewrite (export_eager (set_rows_count (Some L) (set_streaming false v))
               (firstn n objs) 0 eq_refl); [reflexivity|].
    cbn. unfold unpaginated in Hlim. rewrite Hlim.
    now apply Hslice.
  - unfold exported.
    rewrite (export_eager (set_rows_count None (set_streaming false v))
               objs 0 eq_refl); [reflexivity|].
    cbn. unfold unpaginated in Hfull. now rewrite Hfull.
  - rewrite Hf, length_map, length_firstn. apply Nat.min_comm.
  - rewrite !Hf. now rewrite firstn_map.
Qed.

End EagerClaims.

(** ** Streaming against eager *)

Section ModesClaims.
Context `{B : Backend}.

(** Pulling [k] rows from the generator expression over [values()]. *)
Lemma pull_values (k : nat) :
  forall (g : list Row) (tr : trace),
    pull_rows values_next k g tr =
    (firstn k g,
     (if (k <=? List.length g)%nat then Suspended else Exhausted),
     skipn k g, tr).
Proof.
  induction k as [|k IH]; intros g tr; [reflexivity|].
  destruct g as [|item rest]; [reflexivity|].
  cbn [pull_rows values_next]. now rewrite IH.
Qed.

(** What a consumer asking for more rows than there are records gets from
    the streaming mode. *)
Lemma export_streaming (v : View) (objs : list Obj) (k : nat) :
  csv_streaming v = true ->
  let q := limit_queryset (get_csv_rows_count v) (queryset v) in
  serializers_agree v ->
  qs_fetch q = inr objs ->
  (serializer_class v <> None -> cursor_opens v q objs) ->
  (List.length objs < k)%nat ->
  fst (export v k []) =
    (match serializer_class v with
     | Some _ => get_serializer_many v objs
     | None => map obj_values objs
     end, Exhausted).
Proof.
  intros Hstream q Hagree Hfetch Hopens Hk.
  unfold export, get_csv_data. rewrite Hstream. fold q.
  unfold serializers_agree in Hagree.
  destruct (serializer_class v) as [s|].
  - destruct Hagree as (sc & ctx & Hsc & Hctx & Hmany).
    destruct k as [|k]; [lia|].
    cbn [consume].
    rewrite (pull_created v sc q objs k [] Hsc
               (cursor_opens_result v q objs (Hopens ltac:(discriminate)))).
    rewrite (pull_loop v sc ctx Hctx).
    cbn [rows_of ending_of fst].
    rewrite firstn_all2 by lia.
    replace (S k <=? List.length objs)%nat with false
      by (symmetry; apply Nat.leb_gt; lia).
    now rewrite Hmany.
  - rewrite Hfetch. cbn [consume]. rewrite pull_values.
    cbn [rows_of ending_of fst]. rewrite length_map.
    rewrite firstn_all2 by (rewrite length_map; lia).
    replace (k <=? List.length objs)%nat with false
      by (symmetry; apply Nat.leb_gt; lia).
    reflexivity.
Qed.

(** C2, as amended.  When no paginator narrows the (limited) query, the
    batch serializer renders each record as the per-record serializer does
    under the view's context, and the store evaluates the query and opens
    its cursor on the same records, the two modes deliver the same rows in
    the same order, and both run to their end. *)
Theorem streaming_matches_eager (v : View) (objs : list Obj) (k : nat) :
  let q := limit_queryset (get_csv_rows_count v) (queryset v) in
  unpaginated v q ->
  serializers_agree v ->
  qs_fetch q = inr objs ->
  (serializer_class v <> None -> cursor_opens v q objs) ->
  (List.length objs < k)%nat ->
  same_output v k /\
  exists rows,
    exported (set_streaming true v) k rows /\
    exported (set_streaming false v) k rows /\
    List.length rows = List.length objs.
Proof.
  intros q Hpage Hagree Hfetch Hopens Hk.
  assert (Hs : fst (export (set_streaming true v) k []) =
               (match serializer_class v with
                | Some _ => get_serializer_many v objs
                | None => map obj_values objs
                end, Exhausted)).
  { exact (export_streaming (set_streaming true v) objs k eq_refl
             Hagree Hfetch Hopens Hk). }
  assert (He : fst (export (set_streaming false v) k []) =
               (match serializer_class v with
                | Some _ => get_serializer_many v objs
                | None => map obj_values objs
                end, Exhausted)).
  { apply (export_eager (set_streaming false v) objs k eq_refl).
    cbn. fold q. unfold unpaginated in Hpage. now rewrite Hpage. }
  split.
  - unfold same_output. now rewrite Hs, He.
  - eexists. split; [exact Hs|]. split; [exact He|].
    unfold serializers_agree in Hagree.
    destruct (serializer_class v) as [s|].
    + destruct Hagree as (sc & ctx & _ & _ & Hmany).
      now rewrite Hmany, length_map.
    + apply length_map.
Qed.

End ModesClaims.

(** ** [apply_rows_limit] *)

Section RowsLimitClaims.
Context {A : Type}.

(** Past the bound the generator expression walks the upstream iterator to
    its end without yielding. *)
Lemma limit_scan_past_bound (L : Z) (xs : list A) :
  forall (i : Z) (used : nat),
    L <= i ->
    limit_scan L i xs used =
    (StopIteration, mkLimitGen L (i + Z.of_nat (List.length xs)),
     mkUpstream [] (used + List.length xs)).
Proof.
  induction xs as [|x rest IH]; intros i used Hi.
  - cbn. now rewrite Z.add_0_r, Nat.add_0_r.
  - cbn [limit_scan].
    replace (i <? L) with false by (symmetry; apply Z.ltb_ge; lia).
    rewrite IH by lia. cbn [List.length].
    f_equal; [f_equal; f_equal; lia | f_equal; lia].
Qed.

(** Pulling [k] rows from the generator expression: as long as the
    consumer asks for no more than the rows there are, each pull takes one
    item from upstream; the pull after the last row reaches the end of
    upstream. *)
Lemma pull_limit (L : Z) (k : nat) :
  forall (i : Z) (xs : list A) (used : nat),
    pull_rows limit_next k (mkLimitGen L i) (mkUpstream xs used) =
    if (k <=? Nat.min (Z.to_nat (L - i)) (List.length xs))%nat
    then (firstn k xs, Suspended, mkLimitGen L (i + Z.of_nat k),
          mkUpstream (skipn k xs) (used + k))
    else (firstn (Z.to_nat (L - i)) xs, Exhausted,
          mkLimitGen L (i + Z.of_nat (List.length xs)),
          mkUpstream [] (used + List.length xs)).
Proof.
  induction k as [|k IH]; intros i xs used.
  - cbn. now rewrite Z.add_0_r, Nat.add_0_r.
  - destruct xs as [|x rest].
    + rewrite Nat.min_0_r. cbn.
      rewrite Z.add_0_r, Nat.add_0_r. now rewrite firstn_nil.
    + cbn [pull_rows limit_next lg_rows_count lg_index remaining consumed
             limit_scan].
      destruct (i <? L) eqn:Hlt.
      * apply Z.ltb_lt in Hlt.
        rewrite IH.
        replace (Z.to_nat (L - i)) with (S (Z.to_nat (L - (i + 1)))) by lia.
        cbn [List.length Nat.min Nat.leb firstn skipn].
        destruct (k <=? Nat.min (Z.to_nat (L - (i + 1))) (List.length rest))%nat.
        -- f_equal; [f_equal; f_equal; lia | f_equal; lia].
        -- f_equal; [f_equal; f_equal; lia | f_equal; lia].
      * apply Z.ltb_ge in Hlt.
        rewrite limit_scan_past_bound by lia.
        replace (Z.to_nat (L - i)) with 0%nat by lia.
        cbn [List.length Nat.min Nat.leb firstn].
        f_equal; [f_equal; f_equal; lia | f_equal; lia].
Qed.

(** X14.  The end of the generator expression is the end of upstream: a
    consumer that pulls until [StopIteration] has taken every upstream
    item. *)
Lemma limit_genexpr_drains_upstream (L : Z) (xs : list A) (used k : nat) :
  (Nat.min (Z.to_nat L) (List.length xs) < k)%nat ->
  let r := pull_rows limit_next k (mkLimitGen L 0) (mkUpstream xs used) in
  ending_of r = Exhausted /\
  consumed (world_of r) = (used + List.length xs)%nat.
Proof.
  intros Hk r. subst r. rewrite pull_limit, Z.sub_0_r.
  replace (k <=? Nat.min (Z.to_nat L) (List.length xs))%nat with false
    by (symmetry; apply Nat.leb_gt; lia).
  now split.
Qed.

(** C5, as amended.  For a lazy sequence and a row limit [L >= 0],
    [apply_rows_limit] returns a generator, not a list; a consumer that
    pulls [k] times receives the first [min(k, L)] items of the sequence in
    order, so [min(L, |data|)] items in all; and while it asks for no more
    rows than there are, every pull takes exactly one item from upstream. *)
Theorem limit_genexpr_yields_prefix (L : Z) (xs : list A) (used k : nat) :
  0 <= L ->
  let it := mkUpstream xs used in
  apply_rows_limit (Some L) (PyIterable it) = Genexpr (mkLimitGen L 0) it /\
  let r := pull_rows limit_next k (mkLimitGen L 0) it in
  rows_of r = firstn (Nat.min k (Z.to_nat L)) xs /\
  ((k <= Nat.min (Z.to_nat L) (List.length xs))%nat ->
   ending_of r = Suspended /\
   consumed (world_of r) = (used + k)%nat /\
   remaining (world_of r) = skipn k xs) /\
  ((Nat.min (Z.to_nat L) (List.length xs) < k)%nat ->
   ending_of r = Exhausted /\
   List.length (rows_of r) = Nat.min (Z.to_nat L) (List.length xs)).
Proof.
  intros HL it. split; [reflexivity|].
  intros r. subst r it. rewrite pull_limit, Z.sub_0_r.
  destruct (k <=? Nat.min (Z.to_nat L) (List.length xs))%nat eqn:Hk.
  - apply Nat.leb_le in Hk. cbn [rows_of ending_of world_of consumed remaining].
    split; [|split].
    + destruct (Nat.le_gt_cases k (Z.to_nat L)) as [Hle|Hgt].
      * now rewrite Nat.min_l.
      * lia.
    + auto.
    + lia.
  - apply Nat.leb_gt in Hk. cbn [rows_of ending_of world_of consumed remaining].
    split; [|split].
    + destruct (Nat.le_gt_cases (Z.to_nat L) (List.length xs)) as [Hle|Hgt].
      * f_equal. lia.
      * rewrite !firstn_all2 by lia. reflexivity.
    + lia.
    + intros _. split; [reflexivity|]. apply length_firstn.
Qed.

(** C9.  Whatever the row limit, a [str], a [bytes] or a [dict] comes back
    as it was passed in; the only data [apply_rows_limit] does not return
    unchanged are lists and the other iterables. *)
Theorem apply_rows_limit_leaves_str_bytes_dict :
  (forall rows_count s,
     apply_rows_limit (A:=A) rows_count (PyStr s) = Value (PyStr s)) /\
  (forall rows_count bs,
     apply_rows_limit (A:=A) rows_count (PyBytes bs) = Value (PyBytes bs)) /\
  (forall rows_count items,
     apply_rows_limit (A:=A) rows_count (PyDict items) = Value (PyDict items)) /\
  (forall rows_count (d : pydata A),
     apply_rows_limit rows_count d <> Value d ->
     (exists xs, d = PyList xs) \/ (exists it, d = PyIterable it)).
Proof.
  repeat split.
  - now intros [n|] s.
  - now intros [n|] bs.
  - now intros [n|] items.
  - intros [n|] d Hchanged.
    + destruct d; try (now contradiction Hchanged); eauto.
    + now contradiction Hchanged.
Qed.

End RowsLimitClaims.

(** ** Misconfigured streaming views *)

Section ConfigurationClaims.
Context `{B : Backend}.

(** C6, as amended.  A streaming view with a serializer class raises
    nothing when [get_csv_data] is called: the call returns the generator
    with its body not entered.  When the serializer class or the serializer
    context cannot be obtained, the generator never produces a row.  A
    failure of [get_serializer_class()] is raised by the first pull.  With a
    failing [get_serializer_context()], the first pull raises that error
    when the cursor opens on at least one record, raises the error of the
    store when the cursor cannot be opened, and ends the sequence when the
    cursor opens on no record. *)
Theorem misconfiguration_surfaces_on_first_pull (v : View) (s : Serializer)
  (tr : trace) (k : nat) :
  csv_streaming v = true ->
  serializer_class v = Some s ->
  let q := limit_queryset (get_csv_rows_count v) (queryset v) in
  get_csv_data v tr = (inr (DataStream (SCreated q)), tr) /\
  (forall e, get_serializer_class v = inl e ->
     pull_rows (stream_next v) (S k) (SCreated q) tr =
     ([], Failed e, SDone, tr ++ [EvGetSerializerClass])) /\
  (forall e sc,
     get_serializer_class v = inr sc ->
     get_serializer_context v = inl e ->
     let r := pull_rows (stream_next v) (S k) (SCreated q) tr in
     rows_of r = [] /\
     ending_of r =
       match fst (open_iterator v q []) with
       | inl e' => Failed e'
       | inr [] => Exhausted
       | inr (_ :: _) => Failed e
       end).
Proof.
  intros Hstream Hser q.
  split; [|split].
  - unfold get_csv_data. now rewrite Hstream, Hser.
  - intros e Hsc. cbn [pull_rows stream_next]. now rewrite Hsc.
  - intros e sc Hsc Hctx r. subst r.
    cbn [pull_rows stream_next]. rewrite Hsc.
    rewrite open_iterator_trace.
    destruct (fst (open_iterator v q [])) as [e'|[|o objs]].
    + now split.
    + now split.
    + cbn [stream_loop]. rewrite Hctx. now split.
Qed.

End ConfigurationClaims.

(** ** The test that triggers the fallback *)

Section FallbackTest.




End FallbackTest.

(** ** What each mode calls *)

Section CallFacts.
Context `{B : Backend}.

Lemma count_none (p allowed : event -> bool) (evs : trace) :
  (forall e, allowed e = true -> p e = false) ->
  forallb allowed evs = true ->
  count p evs = 0%nat.
Proof.
  intros Hdisj. unfold count.
  induction evs as [|e evs IH]; [reflexivity|].
  cbn [forallb filter]. intros Hall. apply andb_true_iff in Hall as [He Hevs].
  rewrite (Hdisj e He). now apply IH.
Qed.

(** One pull only appends calls of the streaming kind. *)
Lemma stream_next_appends (v : View) (g : serialized_stream) (tr : trace) :
  exists evs,
    snd (stream_next v g tr) = tr ++ evs /\
    forallb streaming_event evs = true.
Proof.
  assert (Hloop : forall sc objs tr0,
             exists evs, snd (stream_loop v sc objs tr0) = tr0 ++ evs /\
                         forallb streaming_event evs = true).
  { intros sc objs tr0. unfold stream_loop, log.
    destruct objs as [|o rest].
    - exists []. now rewrite app_nil_r.
    - destruct (get_serializer_context v).
      + now exists [EvGetSerializerContext].
      + exists [EvGetSerializerContext; EvSerialize o].
        cbn [snd]. now rewrite <- app_assoc. }
  destruct g as [q|sc objs|].
  - cbn [stream_next]. unfold log.
    destruct (get_serializer_class v) as [e|sc].
    + now exists [EvGetSerializerClass].
    + rewrite open_iterator_trace.
      assert (Hopen : forallb streaming_event (open_events v q) = true).
      { unfold open_events, open_iterator.
        destruct (qs_iterator q None) as [e|objs]; [|reflexivity].
        now destruct (needs_chunk_size e). }
      destruct (fst (open_iterator v q [])) as [e|objs].
      * exists (EvGetSerializerClass :: open_events v q).
        cbn [snd]. rewrite <- app_assoc. split; [reflexivity|exact Hopen].
      * destruct (Hloop sc objs ((tr ++ [EvGetSerializerClass]) ++ open_events v q))
          as (evs & Hevs & Hall).
        exists ((EvGetSerializerClass :: open_events v q) ++ evs).
        rewrite Hevs. split.
        -- now rewrite <- !app_assoc.
        -- rewrite forallb_app. cbn [forallb streaming_event].
           now rewrite Hopen, Hall.
  - apply Hloop.
  - exists []. now rewrite app_nil_r.
Qed.

Lemma pull_rows_appends (v : View) (k : nat) :
  forall (g : serialized_stream) (tr : trace),
  exists evs,
    world_of (pull_rows (stream_next v) k g tr) = tr ++ evs /\
    forallb streaming_event evs = true.
Proof.
  induction k as [|k IH]; intros g tr.
  - exists []. now rewrite app_nil_r.
  - cbn [pull_rows].
    destruct (stream_next_appends v g tr) as (evs1 & H1 & Hall1).
    destruct (stream_next v g tr) as [[out g'] tr'].
    cbn [snd] in H1. subst tr'.
    destruct out as [row| |e].
    + destruct (IH g' (tr ++ evs1)) as (evs2 & H2 & Hall2).
      destruct (pull_rows (stream_next v) k g' (tr ++ evs1))
        as [[[rows fin] g''] tr''].
      cbn [world_of] in *. subst tr''.
      exists (evs1 ++ evs2). rewrite forallb_app, Hall1, Hall2.
      now rewrite app_assoc.
    + now exists evs1.
    + now exists evs1.
Qed.

(** X2.  The streaming mode never calls the paginator and never serializes
    in batch, whatever the store and the serializer do and however far the
    consumer pulls. *)
Theorem streaming_never_paginates (v : View) (k : nat) (tr : trace) :
  csv_streaming v = true ->
  count is_paginate (snd (export v k tr)) = count is_paginate tr /\
  count is_serialize_many (snd (export v k tr)) = count is_serialize_many tr.
Proof.
  intros Hstream.
  assert (Hevs : exists evs, snd (export v k tr) = tr ++ evs /\
                             forallb streaming_event evs = true).
  { unfold export, get_csv_data. rewrite Hstream.
    destruct (serializer_class v) as [s|].
    - cbn [consume snd]. apply pull_rows_appends.
    - unfold log.
      destruct (qs_fetch (limit_queryset (get_csv_rows_count v) (queryset v)))
        as [e|objs].
      + now eexists.
      + cbn [consume snd]. rewrite pull_values. cbn [world_of]. now eexists. }
  destruct Hevs as (evs & -> & Hall).
  rewrite !count_app.
  rewrite (count_none is_paginate streaming_event evs), 
          (count_none is_serialize_many streaming_event evs); auto;
    intros [] He; try reflexivity; discriminate.
Qed.

(** X3.  The eager mode calls the paginator once, whatever comes of the
    evaluation, and never opens a cursor.  On a view without a serializer
    class it evaluates one queryset once and calls nothing else: no
    serializer class or context is looked up and nothing is serialized. *)
Theorem eager_calls (v : View) (k : nat) (tr : trace) :
  csv_streaming v = false ->
  let tr' := snd (export v k tr) in
  count is_paginate tr' = (count is_paginate tr + 1)%nat /\
  count is_cursor_call tr' = count is_cursor_call tr /\
  (serializer_class v = None ->
   count is_fetch tr' = (count is_fetch tr + 1)%nat /\
   count is_class_lookup tr' = count is_class_lookup tr /\
   count is_context_build tr' = count is_context_build tr /\
   count is_serialize tr' = count is_serialize tr /\
   count is_serialize_many tr' = count is_serialize_many tr).
Proof.
  intros Heager tr'. subst tr'.
  unfold export, get_csv_data. rewrite Heager. unfold log.
  set (limited := limit_queryset (get_csv_rows_count v) (queryset v)).
  set (paged := match paginate_queryset v limited with
                | Some p => p | None => limited end).
  destruct (serializer_class v) as [s|], (qs_fetch paged) as [e|objs];
    cbn [consume snd]; rewrite !count_app; unfold count; simpl;
    repeat split; try lia; try discriminate; intros _; repeat split; lia.
Qed.



End CallFacts.

(** ** The life of the streaming generator *)

Section StreamLife.
Context `{B : Backend}.

(** A pull never leaves the generator unentered. *)
Lemma stream_next_started (v : View) (g : serialized_stream) (tr : trace) :
  started (snd (fst (stream_next v g tr))).
Proof.
  assert (Hloop : forall sc objs tr0,
             started (snd (fst (stream_loop v sc objs tr0)))).
  { intros sc objs tr0. unfold stream_loop.
    destruct objs as [|o rest]; [exact I|].
    now destruct (get_serializer_context v). }
  destruct g as [q|sc objs|]; cbn [stream_next].
  - destruct (get_serializer_class v) as [e|sc]; [exact I|].
    destruct (open_iterator v q (log EvGetSerializerClass tr)) as [[e|objs] tr'].
    + exact I.
    + apply Hloop.
  - apply Hloop.
  - exact I.
Qed.

(** A pull that ends or fails leaves the generator finished. *)
Lemma stream_next_finishes (v : View) (g : serialized_stream) (tr : trace) :
  (forall row, fst (fst (stream_next v g tr)) <> Yield row) ->
  snd (fst (stream_next v g tr)) = SDone.
Proof.
  assert (Hloop : forall sc objs tr0,
             (forall row, fst (fst (stream_loop v sc objs tr0)) <> Yield row) ->
             snd (fst (stream_loop v sc objs tr0)) = SDone).
  { intros sc objs tr0. unfold stream_loop.
    destruct objs as [|o rest]; [reflexivity|].
    destruct (get_serializer_context v) as [e|ctx]; [reflexivity|].
    cbn [fst snd]. intros H. now contradiction (H (to_representation sc ctx o)). }
  destruct g as [q|sc objs|]; cbn [stream_next].
  - destruct (get_serializer_class v) as [e|sc]; [reflexivity|].
    destruct (open_iterator v q (log EvGetSerializerClass tr)) as [[e|objs] tr'].
    + reflexivity.
    + apply Hloop.
  - apply Hloop.
  - reflexivity.
Qed.

Lemma pull_done (v : View) (j : nat) (tr : trace) :
  pull_rows (stream_next v) (S j) SDone tr = ([], Exhausted, SDone, tr).
Proof. reflexivity. Qed.

(** X5.  Once the stream has ended or has raised, it is finished: every
    later pull gives [StopIteration] and calls nothing, so an error is
    raised once and the store is not tried again. *)
Theorem stream_finished_stays_finished (v : View) (k j : nat) :
  forall (g : serialized_stream) (tr : trace),
  let r := pull_rows (stream_next v) k g tr in
  ending_of r <> Suspended ->
  pull_rows (stream_next v) (S j) (state_of r) (world_of r) =
  ([], Exhausted, SDone, world_of r).
Proof.
  induction k as [|k IH]; intros g tr r Hend.
  - now contradiction Hend.
  - subst r. cbn [pull_rows] in *.
    pose proof (stream_next_finishes v g tr) as Hfin.
    destruct (stream_next v g tr) as [[out g'] tr'].
    cbn [fst snd] in Hfin.
    destruct out as [row| |e].
    + specialize (IH g' tr').
      destruct (pull_rows (stream_next v) k g' tr') as [[[rows fin] g''] tr''].
      cbn [ending_of state_of world_of] in *. now apply IH.
    + cbn [state_of world_of]. rewrite Hfin by discriminate. reflexivity.
    + cbn [state_of world_of]. rewrite Hfin by discriminate. reflexivity.
Qed.

(** X6.  Over a query without records the stream ends at the first pull
    and [get_serializer_context] is never called: a context that cannot be
    built goes unnoticed. *)
Theorem empty_stream_skips_context (v : View) (q : QuerySet) (sc : Serializer)
  (k : nat) (tr : trace) :
  get_serializer_class v = inr sc ->
  cursor_opens v q [] ->
  let r := pull_rows (stream_next v) (S k) (SCreated q) tr in
  r = ([], Exhausted, SDone, tr ++ EvGetSerializerClass :: open_events v q) /\
  count is_context_build (world_of r) = count is_context_build tr.
Proof.
  intros Hsc Hopens r.
  assert (Hr : r = ([], Exhausted, SDone,
                    tr ++ EvGetSerializerClass :: open_events v q)).
  { subst r. cbn [pull_rows stream_next]. rewrite Hsc.
    rewrite open_iterator_trace, (cursor_opens_result v q [] Hopens).
    cbn [stream_loop]. unfold log. now rewrite <- app_assoc. }
  split; [exact Hr|]. rewrite Hr. cbn [world_of].
  change (EvGetSerializerClass :: open_events v q)
    with ([EvGetSerializerClass] ++ open_events v q).
  rewrite !count_app.
  destruct (open_events_counts v q) as [_ ->]. unfold count. simpl. lia.
Qed.

(** Pulls on a generator that has entered its body do not read the chunk
    size. *)
Lemma pull_started_ignores_chunk_size (v : View) (c : option Z) (k : nat) :
  forall (g : serialized_stream) (tr : trace),
    started g ->
    pull_rows (stream_next (set_chunk_size c v)) k g tr =
    pull_rows (stream_next v) k g tr.
Proof.
  induction k as [|k IH]; intros g tr Hg; [reflexivity|].
  cbn [pull_rows].
  assert (Hnext : stream_next (set_chunk_size c v) g tr = stream_next v g tr).
  { destruct g as [q|sc objs|]; [contradiction | reflexivity | reflexivity]. }
  rewrite Hnext.
  pose proof (stream_next_started v g tr) as Hg'.
  destruct (stream_next v g tr) as [[out g'] tr']. cbn [fst snd] in Hg'.
  destruct out as [row| |e]; [|reflexivity|reflexivity].
  now rewrite IH.
Qed.

(** X7.  [csv_streaming_chunk_size] matters only in the fallback: when
    [iterator()] without a chunk size opens, or fails with an error that is
    not the recognised one, the stream behaves the same whatever the chunk
    size is set to. *)
Theorem chunk_size_only_in_fallback (v : View) (c : option Z) (q : QuerySet)
  (k : nat) (tr : trace) :
  (forall e, qs_iterator q None = inl e -> needs_chunk_size e = false) ->
  pull_rows (stream_next (set_chunk_size c v)) k (SCreated q) tr =
  pull_rows (stream_next v) k (SCreated q) tr.
Proof.
  intros Hplain. destruct k as [|k]; [reflexivity|].
  cbn [pull_rows].
  assert (Hnext : stream_next (set_chunk_size c v) (SCreated q) tr =
                  stream_next v (SCreated q) tr).
  { cbn [stream_next]. 
    change (get_serializer_class (set_chunk_size c v))
      with (get_serializer_class v).
    destruct (get_serializer_class v) as [e|sc]; [reflexivity|].
    unfold open_iterator.
    destruct (qs_iterator q None) as [e|objs] eqn:Hit; [|reflexivity].
    now rewrite (Hplain e eq_refl). }
  rewrite Hnext.
  pose proof (stream_next_started v (SCreated q) tr) as Hg'.
  destruct (stream_next v (SCreated q) tr) as [[out g'] tr'].
  cbn [fst snd] in Hg'.
  destruct out as [row| |e]; [|reflexivity|reflexivity].
  now rewrite pull_started_ignores_chunk_size.
Qed.

End StreamLife.

(** ** The row limit in the streaming mode *)

Section StreamingLimit.
Context `{B : Backend}.

(** X9.  A streaming view without a serializer class evaluates the limited
    queryset once and hands out the [values()] mapping of its records, in
    order, as the consumer pulls; it looks up no serializer class and no
    context, opens no cursor, and pulling calls nothing further. *)
Theorem streaming_values_rows (v : View) (objs : list Obj) (k : nat)
  (tr : trace) :
  csv_streaming v = true ->
  serializer_class v = None ->
  let q := limit_queryset (get_csv_rows_count v) (queryset v) in
  qs_fetch q = inr objs ->
  export v k tr =
    (map obj_values (firstn k objs),
     (if (k <=? List.length objs)%nat then Suspended else Exhausted),
     tr ++ [EvFetch q]).
Proof.
  intros Hstream Hnone q Hfetch.
  unfold export, get_csv_data. rewrite Hstream, Hnone. fold q.
  rewrite Hfetch. cbn [consume]. rewrite pull_values.
  cbn [rows_of ending_of world_of]. unfold log.
  now rewrite firstn_map, length_map.
Qed.

(** X10.  In the streaming mode the row limit restricts the query before
    the cursor opens: with a limit [L >= 0] the cursor is opened on the
    sliced queryset, exactly [min(|Q|, L)] records are serialized, and the
    rows are the first [L] rows of the stream without a limit. *)
Theorem streaming_limit_is_prefix (v : View) (s sc : Serializer) (ctx : Ctx)
  (L : Z) (objs : list Obj) (k : nat) :
  csv_streaming v = true ->
  serializer_class v = Some s ->
  get_serializer_class v = inr sc ->
  get_serializer_context v = inr ctx ->
  0 <= L ->
  cursor_opens v (queryset v) objs ->
  cursor_opens v (qs_slice (queryset v) L) (firstn (Z.to_nat L) objs) ->
  (List.length objs < k)%nat ->
  let limited := export (set_rows_count (Some L) v) k [] in
  let full := export (set_rows_count None v) k [] in
  fst limited = (firstn (Z.to_nat L) (fst (fst full)), Exhausted) /\
  snd (fst full) = Exhausted /\
  List.length (fst (fst limited)) = Nat.min (List.length objs) (Z.to_nat L) /\
  snd limited =
    EvGetSerializerClass :: open_events v (qs_slice (queryset v) L)
      ++ loop_events (firstn (Z.to_nat L) objs) /\
  count is_serialize (snd limited) = Nat.min (List.length objs) (Z.to_nat L).
Proof.
  intros Hstream Hser Hsc Hctx HL Hfull Hlim Hk limited full.
  destruct k as [|k]; [lia|].
  assert (Hexport : forall n q os,
             cursor_opens v q os -> (List.length os < S k)%nat ->
             limit_queryset n (queryset v) = q ->
             export (set_rows_count n v) (S k) [] =
             (map (to_representation sc ctx) os, Exhausted,
              EvGetSerializerClass :: open_events v q ++ loop_events os)).
  { intros n q os Hopens Hlen Hq.
    unfold export, get_csv_data. cbn [set_rows_count csv_streaming
      get_csv_rows_count queryset serializer_class].
    rewrite Hstream, Hser, Hq. cbn [consume].
    rewrite (pull_created (set_rows_count n v) sc q os k [] Hsc
               (cursor_opens_result v q os Hopens)).
    rewrite (pull_loop (set_rows_count n v) sc ctx Hctx).
    cbn [rows_of ending_of world_of].
    rewrite firstn_all2 by lia.
    replace (S k <=? List.length os)%nat with false
      by (symmetry; apply Nat.leb_gt; lia).
    reflexivity. }
  assert (Hl : limited =
               (map (to_representation sc ctx) (firstn (Z.to_nat L) objs),
                Exhausted,
                EvGetSerializerClass :: open_events v (qs_slice (queryset v) L)
                  ++ loop_events (firstn (Z.to_nat L) objs))).
  { subst limited. apply Hexport; [exact Hlim| |reflexivity].
    rewrite length_firstn. lia. }
  assert (Hf : full =
               (map (to_representation sc ctx) objs, Exhausted,
                EvGetSerializerClass :: open_events v (queryset v)
                  ++ loop_events objs)).
  { subst full. apply Hexport; [exact Hfull|exact Hk|reflexivity]. }
  rewrite Hl, Hf. cbn [fst snd].
  repeat split.
  - now rewrite firstn_map.
  - rewrite length_map, length_firstn. apply Nat.min_comm.
  - change (EvGetSerializerClass :: open_events v (qs_slice (queryset v) L)
              ++ loop_events (firstn (Z.to_nat L) objs))
      with ([EvGetSerializerClass] ++ open_events v (qs_slice (queryset v) L)
              ++ loop_events (firstn (Z.to_nat L) objs)).
    rewrite !count_app, count_loop_events_serialize, length_firstn.
    destruct (open_events_counts v (qs_slice (queryset v) L)) as [-> _].
    unfold count. simpl. lia.
Qed.

End StreamingLimit.

(** ** [apply_rows_limit]: lists, negative limits, agreement *)

Section RowsLimitMore.
Context {A : Type}.

(** X11.  For a row limit [L >= 0] a list comes back as its first
    [min(L, len)] items: a prefix of the list, and limiting the result again
    changes nothing. *)
Theorem list_limit_is_prefix (L : Z) (xs : list A) :
  0 <= L ->
  exists ys rest,
    apply_rows_limit (Some L) (PyList xs) = Value (PyList ys) /\
    xs = ys ++ rest /\
    List.length ys = Nat.min (Z.to_nat L) (List.length xs) /\
    apply_rows_limit (Some L) (PyList ys) = Value (PyList ys).
Proof.
  intros HL.
  exists (firstn (Z.to_nat L) xs), (skipn (Z.to_nat L) xs).
  cbn [apply_rows_limit]. unfold slice_to.
  replace (0 <=? L) with true by (symmetry; apply Z.leb_le; lia).
  repeat split.
  - symmetry. apply firstn_skipn.
  - apply length_firstn.
  - now rewrite firstn_firstn, Nat.min_id.
Qed.

(** X12.  A lazy sequence is truncated to the rows a list of the same
    items is truncated to: for [L >= 0] a consumer that pulls the generator
    to its end has received exactly the list [apply_rows_limit] returns for
    the list. *)
Theorem lazy_limit_matches_list_limit (L : Z) (xs : list A) (used k : nat) :
  0 <= L ->
  (Nat.min (Z.to_nat L) (List.length xs) < k)%nat ->
  match apply_rows_limit (Some L) (PyList xs),
        apply_rows_limit (Some L) (PyIterable (mkUpstream xs used)) with
  | Value (PyList ys), Genexpr g it =>
      rows_of (pull_rows limit_next k g it) = ys /\
      ending_of (pull_rows limit_next k g it) = Exhausted
  | _, _ => False
  end.
Proof.
  intros HL Hk. cbn [apply_rows_limit]. unfold slice_to.
  replace (0 <=? L) with true by (symmetry; apply Z.leb_le; lia).
  rewrite pull_limit, Z.sub_0_r.
  replace (k <=? Nat.min (Z.to_nat L) (List.length xs))%nat with false
    by (symmetry; apply Nat.leb_gt; lia).
  now split.
Qed.

(** X13.  With a negative row limit the two paths part: a list loses its
    last [-L] items (all of them when it has no more than that), a lazy
    sequence yields nothing at all. *)
Theorem negative_limit_list_and_lazy_differ (L : Z) (xs : list A)
  (used k : nat) :
  L < 0 ->
  apply_rows_limit (Some L) (PyList xs) =
    Value (PyList (firstn (List.length xs - Z.to_nat (- L)) xs)) /\
  match apply_rows_limit (Some L) (PyIterable (mkUpstream xs used)) with
  | Genexpr g it => rows_of (pull_rows limit_next k g it) = []
  | Value _ => False
  end.
Proof.
  intros HL. split.
  - cbn [apply_rows_limit]. unfold slice_to.
    replace (0 <=? L) with false by (symmetry; apply Z.leb_gt; lia).
    do 3 f_equal. lia.
  - cbn [apply_rows_limit]. rewrite pull_limit, Z.sub_0_r.
    replace (Z.to_nat L) with 0%nat by lia. cbn [Nat.min].
    destruct k as [|k]; reflexivity.
Qed.

End RowsLimitMore.

(** ** The entry points *)

Section EntryPointClaims.
Context `{B : Backend} {Response : Type}.
Variable create_csv_response :
  csv_data -> trace -> (exn + Response) * trace.


End EntryPointClaims.

(** [CSVGenericView.get] on an instance that has not overridden
    [get_csv_data] raises its [NotImplementedError], whatever the response
    builder would do. *)
Lemma generic_get_not_implemented {D Response : Type}
  (create_csv_response : D -> exn + Response) :
  generic_get generic_get_csv_data create_csv_response = inl not_implemented /\
  is_value_error not_implemented = false.
Proof. now split. Qed.

(** ** The properties on the concrete store *)

Import Orm.

(** C1, as the specification words it, fails for a paginated view: of five
    records limited to three, the second page of size two holds one row,
    not three, and the unlimited export holds rows three and four. *)
Lemma limit_is_prefix_fails_when_paginated :
  ~ limit_is_prefix (view_of five false None page_two) 3.
Proof.
  intros H.
  destruct (H [1; 2; 3; 4; 5] eq_refl) as (rows & full & Hrows & _ & Hlen & _).
  vm_compute in Hrows. injection Hrows as <-.
  vm_compute in Hlen. discriminate.
Qed.

Lemma limit_is_prefix_witness :
  limit_is_prefix (view_of five false None no_page) 3.
Proof.
  apply limit_is_prefix_without_paginator.
  - lia.
  - intros objs Hobjs. injection Hobjs as <-. reflexivity.
  - reflexivity.
  - reflexivity.
  - intros _. exists (to_representation pk_serializer "request"%string).
    reflexivity.
Defined.

(** C2, as the specification words it, fails for a paginated view: the
    eager mode delivers the page, the streaming mode every record. *)
Lemma same_output_fails_when_paginated :
  ~ same_output (view_of five false None page_two) 10.
Proof.
  unfold same_output. vm_compute. discriminate.
Qed.

Lemma streaming_matches_eager_witness :
  same_output (view_of five_prefetched false (Some 3) no_page) 4.
Proof.
  apply (streaming_matches_eager
           (view_of five_prefetched false (Some 3) no_page) [1; 2; 3] 4).
  - reflexivity.
  - exists pk_serializer, "request"%string. repeat split; reflexivity.
  - reflexivity.
  - intros _. right. exists prefetch_error. repeat split; reflexivity.
  - simpl. lia.
Defined.

Lemma chunk_size_fallback_witness :
  rows_of (pull_rows (stream_next (view_of five_prefetched true None no_page))
             6 (SCreated five_prefetched) []) =
  [[("pk"%string, 1)]; [("pk"%string, 2)]; [("pk"%string, 3)];
   [("pk"%string, 4)]; [("pk"%string, 5)]].
Proof.
  apply (chunk_size_fallback_recovers
           (view_of five_prefetched true None no_page) five_prefetched
           prefetch_error pk_serializer "request"%string [1; 2; 3; 4; 5] [] 6);
    try reflexivity.
  simpl. lia.
Defined.

Lemma unrelated_cursor_error_witness :
  stream_next (view_of five_down true None no_page) (SCreated five_down) [] =
  (Raise operational_error, SDone,
   [EvGetSerializerClass; EvIterator five_down None]).
Proof.
  apply (unrelated_cursor_error_propagates
           (view_of five_down true None no_page) five_down operational_error
           pk_serializer []); reflexivity.
Defined.

(** C5, as the specification words it, fails: truncating five items to one,
    a consumer that pulls to the end has taken all five from upstream. *)
Lemma bounded_consumption_fails :
  ~ bounded_consumption 1 (mkUpstream [10; 20; 30; 40; 50] 0).
Proof.
  intros H. specialize (H 2%nat). vm_compute in H. lia.
Qed.

Lemma limit_genexpr_witness :
  rows_of (pull_rows limit_next 3 (mkLimitGen 2 0)
             (mkUpstream [10; 20; 30; 40; 50] 0)) = [10; 20].
Proof.
  apply (limit_genexpr_yields_prefix 2 [10; 20; 30; 40; 50] 0 3).
  lia.
Defined.

(** C6, as the specification words it, fails: the call on a streaming view
    whose serializer context cannot be built returns normally. *)
Lemma configuration_error_is_deferred :
  ~ configuration_error_is_synchronous view_without_context.
Proof.
  intros H.
  specialize (H eq_refl improperly_configured (or_intror eq_refl)).
  vm_compute in H. discriminate.
Qed.

Lemma misconfiguration_witness :
  rows_of (pull_rows (stream_next view_without_context) 1 (SCreated five) []) = [] /\
  ending_of (pull_rows (stream_next view_without_context) 1 (SCreated five) []) =
    Failed improperly_configured.
Proof.
  apply (misconfiguration_surfaces_on_first_pull
           view_without_context pk_serializer [] 0 eq_refl eq_refl)
    with (sc := pk_serializer).
  - reflexivity.
  - reflexivity.
Defined.

(** C7, as the specification words it, fails: streaming five records calls
    [get_serializer_context] five times. *)
Lemma context_is_rebuilt_per_record :
  ~ one_transform_per_row_shared_context (view_of five true None no_page) five 10.
Proof.
  intros [_ H]. vm_compute in H. lia.
Qed.

Lemma stream_transforms_witness :
  count is_context_build
    (world_of (pull_rows (stream_next (view_of five true None no_page))
                 2 (SCreated five) [])) = 2%nat.
Proof.
  apply (stream_transforms_per_pull
           (view_of five true None no_page) five pk_serializer
           "request"%string [1; 2; 3; 4; 5] [] 2);
    try reflexivity.
  left. reflexivity.
Defined.

Lemma limit_then_page_witness :
  get_csv_data (view_of five false (Some 3) page_two) [] =
  (inr (DataList [[("pk"%string, 3)]]),
   [EvPaginate (mkQs [1; 2; 3] false None); EvFetch (mkQs [3] false None);
    EvSerializeMany [3]]).
Proof.
  apply (limit_then_page_then_batch
           (view_of five false (Some 3) page_two) 3 [3] []); reflexivity.
Defined.

Lemma streaming_defers_witness :
  get_csv_data (view_of five_down true (Some 3) no_page) [] =
  (inr (DataStream (SCreated (mkQs [1; 2; 3] false (Some operational_error)))), []).
Proof.
  apply (streaming_defers_store_access
           (view_of five_down true (Some 3) no_page) pk_serializer []);
    reflexivity.
Defined.

(** *** Further properties, on the concrete store *)

Lemma streaming_never_paginates_witness :
  count is_paginate
    (snd (export (view_of five_prefetched true (Some 3) page_two) 10 [])) = 0%nat.
Proof.
  apply (streaming_never_paginates
           (view_of five_prefetched true (Some 3) page_two) 10 []).
  reflexivity.
Defined.

Lemma eager_calls_witness :
  count is_fetch
    (snd (export (set_streaming false (raw_view five_down (Some 3))) 0 [])) =
  1%nat.
Proof.
  destruct (eager_calls (set_streaming false (raw_view five_down (Some 3))) 0 []
              eq_refl) as (_ & _ & Hraw).
  apply Hraw. reflexivity.
Defined.


Lemma stream_finished_witness :
  pull_rows (stream_next (view_of five_down true None no_page)) 1 SDone
    [EvGetSerializerClass; @EvIterator backend five_down None] =
  ([], Exhausted, SDone,
   [EvGetSerializerClass; @EvIterator backend five_down None]).
Proof.
  apply (stream_finished_stays_finished
           (view_of five_down true None no_page) 1 0
           (@SCreated backend five_down) []).
  vm_compute. discriminate.
Defined.

Lemma empty_stream_witness :
  pull_rows (stream_next empty_view_without_context) 1
    (@SCreated backend none) [] =
  ([], Exhausted, SDone,
   [EvGetSerializerClass; @EvIterator backend none None]).
Proof.
  apply (empty_stream_skips_context empty_view_without_context none
           pk_serializer 0 []).
  - reflexivity.
  - left. reflexivity.
Defined.

Lemma chunk_size_only_in_fallback_witness :
  pull_rows (stream_next (set_chunk_size (Some 7) (view_of five true None no_page)))
    3 (SCreated five) [] =
  pull_rows (stream_next (view_of five true None no_page)) 3 (SCreated five) [].
Proof.
  apply (chunk_size_only_in_fallback
           (view_of five true None no_page) (Some 7) five 3 []).
  intros e He. vm_compute in He. discriminate.
Defined.

Lemma fallback_failure_witness :
  stream_next view_with_zero_chunk (SCreated five_prefetched) [] =
  (Raise chunk_error, SDone,
   [EvGetSerializerClass; EvIterator five_prefetched None;
    EvIterator five_prefetched (Some 0)]).
Proof.
  apply (fallback_failure_propagates view_with_zero_chunk five_prefetched
           prefetch_error chunk_error pk_serializer []); reflexivity.
Defined.

Lemma streaming_values_witness :
  export (raw_view five (Some 3)) 2 [] =
  ([[("id"%string, 1)]; [("id"%string, 2)]], Suspended,
   [EvFetch (mkQs [1; 2; 3] false None)]).
Proof.
  apply (streaming_values_rows (raw_view five (Some 3)) [1; 2; 3] 2 []);
    reflexivity.
Defined.

Lemma streaming_limit_witness :
  count is_serialize
    (snd (export (set_rows_count (Some 2)
                    (view_of five_prefetched true None no_page)) 6 [])) = 2%nat.
Proof.
  apply (streaming_limit_is_prefix
           (view_of five_prefetched true None no_page) pk_serializer
           pk_serializer "request"%string 2 [1; 2; 3; 4; 5] 6);
    try reflexivity.
  - lia.
  - right. exists prefetch_error. repeat split; reflexivity.
  - right. exists prefetch_error. repeat split; reflexivity.
  - simpl. lia.
Defined.

Lemma limit_genexpr_drains_witness :
  consumed (world_of (pull_rows limit_next 1 (mkLimitGen 0 0)
                        (mkUpstream [10; 20; 30] 0))) = 3%nat.
Proof.
  apply (limit_genexpr_drains_upstream 0 [10; 20; 30] 0 1).
  simpl. lia.
Defined.

Lemma list_limit_witness :
  exists ys rest,
    apply_rows_limit (Some 2) (PyList [10; 20; 30]) = Value (PyList ys) /\
    [10; 20; 30] = ys ++ rest /\
    List.length ys = 2%nat /\
    apply_rows_limit (Some 2) (PyList ys) = Value (PyList ys).
Proof.
  apply (list_limit_is_prefix 2 [10; 20; 30]). lia.
Defined.

Lemma lazy_limit_matches_list_witness :
  rows_of (pull_rows limit_next 3 (mkLimitGen 2 0) (mkUpstream [10; 20; 30] 0)) =
  [10; 20] /\
  ending_of (pull_rows limit_next 3 (mkLimitGen 2 0) (mkUpstream [10; 20; 30] 0)) =
  Exhausted.
Proof.
  apply (lazy_limit_matches_list_limit 2 [10; 20; 30] 0 3).
  - lia.
  - simpl. lia.
Defined.

Lemma negative_limit_witness :
  apply_rows_limit (Some (-1)) (PyList [10; 20; 30]) = Value (PyList [10; 20]) /\
  rows_of (pull_rows limit_next 4 (mkLimitGen (-1) 0) (mkUpstream [10; 20; 30] 0)) =
  [].
Proof.
  apply (negative_limit_list_and_lazy_differ (-1) [10; 20; 30] 0 4). lia.
Defined.

